(** * useOne: the single-record fetch hook of @refinedev/core

    A shallow embedding of [packages/core/src/hooks/data/useOne.ts].

    [useOne] is a React hook: on every render it resolves the resource,
    merges the query metadata, registers a live subscription
    ([useResourceSubscription]), hands a fetcher and a pair of settle
    callbacks to the cache engine ([useQuery]) and returns the engine's
    result extended with the stall watchdog's elapsed time.

    The embedding follows the hook line by line:
    - JavaScript values are [JsVal]; objects are [gmap string JsVal], object
      spread is the (left-biased) union of maps and a property written after
      a spread is an insert;
    - the calls the hook makes to its collaborators (the data provider's
      [getOne], [checkError], the caller's callbacks, [handleNotification])
      are recorded, in program order, by a writer monad [Eff] over [Event];
    - the hooks and helpers that are imported from other modules are the
      methods of the class [Providers].

    Numbers are modelled by [Z]: record keys and status codes are the
    integer-valued numbers a backend uses.  How the runtime prints such a
    number in a template literal is [number_to_string]: the decimal digits
    on the safe integers, and left to the runtime beyond them, where
    JavaScript rounds the digits and, from 1e21, writes an exponent.
    Caller-supplied callbacks are modelled as returning normally. *)

From stdpp Require Import base strings gmap list pretty.

Local Open Scope string_scope.
Local Open Scope Z_scope.

(** ** JavaScript values *)

#[warnings="-register-all"]
Inductive JsVal : Type :=
| JUndefined
| JNull
| JBool (b : bool)
| JNum (n : Z)
| JStr (s : string)
| JArr (xs : list JsVal)
| JObj (fields : gmap string JsVal)
| JHost (ref : nat).  (* a host object compared by identity: AbortSignal, ... *)

(** A function value supplied by the caller, known by its identity. *)
Inductive FnRef : Type := Fn (ref : nat).

(** [BaseKey = string | number]. *)
Inductive BaseKey : Type :=
| KeyStr (s : string)
| KeyNum (n : Z).

(** [MetaQuery]: an open mapping of extra parameters. *)
Abbreviation MetaQuery := (gmap string JsVal).

Definition key_value (k : BaseKey) : JsVal :=
  match k with
  | KeyStr s => JStr s
  | KeyNum n => JNum n
  end.

(** The value of an optional key: [undefined] when it is absent. *)
Definition opt_key_value (id : option BaseKey) : JsVal :=
  match id with
  | Some k => key_value k
  | None => JUndefined
  end.

(** [Number.isSafeInteger]: the integers a JavaScript number holds
    exactly, each next to its neighbours. *)
Definition safe_integer (n : Z) : Prop := - (2 ^ 53 - 1) ≤ n ≤ 2 ^ 53 - 1.

(** [s.includes(part)]: [part] occurs in [s]. *)
Fixpoint includes (s part : string) : bool :=
  String.prefix part s ||
  match s with
  | String _ s' => includes s' part
  | EmptyString => false
  end.

(** [id ? ... : ...]: the empty string, zero and [undefined] are falsy. *)
Definition truthy_key (id : option BaseKey) : bool :=
  match id with
  | Some (KeyStr s) => negb (String.eqb s "")
  | Some (KeyNum n) => negb (n =? 0)
  | None => false
  end.

(** [typeof x !== "undefined"] on an optional value. *)
Definition defined {A : Type} (x : option A) : bool :=
  match x with
  | Some _ => true
  | None => false
  end.

(** ** Interfaces *)

(** A resource of the registry: its name, its identifier and its
    resource-level default metadata. *)
Record IResourceItem : Type := {
  res_name : string;
  res_identifier : string;
  res_meta : MetaQuery;
}.

(** What [useResource] returns. *)
Record ResourceResolution : Type := {
  resources : list IResourceItem;
  resource : option IResourceItem;
  identifier : string;
}.

(** [HttpError]. *)
Record HttpError : Type := {
  message : string;
  statusCode : Z;
}.

Inductive NotificationType : Type :=
| success
| error
| progress.

(** [OpenNotificationParams]: a notification descriptor. *)
Record OpenNotificationParams : Type := {
  np_key : option string;
  np_message : string;
  np_description : option string;
  np_type : NotificationType;
}.

(** [successNotification] / [errorNotification]: a static descriptor or a
    function of (outcome, values, resource identifier) that yields a
    descriptor or none. *)
Inductive NotificationProp (O : Type) : Type :=
| Static (d : OpenNotificationParams)
| Computed (f : O → MetaQuery → string → option OpenNotificationParams).
Arguments Static {O} d.
Arguments Computed {O} f.

(** The part of react-query's [UseQueryOptions] that the hook reads, and the
    rest, which it passes through. *)
Record UseQueryOptions : Type := {
  qo_enabled : option bool;
  qo_onSuccess : option FnRef;
  qo_onError : option FnRef;
  qo_rest : MetaQuery;
}.

Inductive LiveMode : Type :=
| live_auto
| live_manual
| live_off.

Record OvertimeOptions : Type := {
  interval : option Z;
  onInterval : option FnRef;
}.

(** [UseOneProps]. *)
Record UseOneProps : Type := {
  resourceFromProp : option string;
  id : option BaseKey;
  queryOptions : option UseQueryOptions;
  successNotification : option (NotificationProp JsVal);
  errorNotification : option (NotificationProp HttpError);
  meta : option MetaQuery;
  metaData : option MetaQuery;
  liveMode : option LiveMode;
  onLiveEvent : option FnRef;
  liveParams : option MetaQuery;
  dataProviderName : option string;
  overtimeOptions : option OvertimeOptions;
}.

(** The argument of the data provider's [getOne]. *)
Record GetOneParams : Type := {
  go_resource : string;
  go_id : option BaseKey;
  go_meta : MetaQuery;
  go_metaData : MetaQuery;
}.

(** The context react-query gives to a query function. *)
Record QueryFunctionContext : Type := {
  queryKey : JsVal;
  pageParam : JsVal;
  signal : JsVal;
}.

(** The argument of [useResourceSubscription]. *)
Record UseResourceSubscriptionProps : Type := {
  sub_resource : string;
  sub_types : list string;
  sub_channel : string;
  sub_params : MetaQuery;
  sub_enabled : bool;
  sub_liveMode : option LiveMode;
  sub_onLiveEvent : option FnRef;
}.

(** The argument of [useLoadingOvertime]. *)
Record UseLoadingOvertimeProps : Type := {
  lo_isLoading : JsVal;
  lo_interval : option Z;
  lo_onInterval : option FnRef;
}.

(** ** Effects: the calls made to the collaborators *)

Inductive Event : Type :=
| GetOne (dataProvider : string) (params : GetOneParams)
| CheckError (err : HttpError)
| QueryOnSuccess (f : FnRef) (data : JsVal)
| QueryOnError (f : FnRef) (err : HttpError)
| SuccessNotification (data : JsVal) (values : MetaQuery) (ident : string)
| ErrorNotification (err : HttpError) (values : MetaQuery) (ident : string)
| HandleNotification (config fallback : option OpenNotificationParams).

(** A computation that returns a value and the calls it made, in order. *)
Definition Eff (A : Type) : Type := A * list Event.

#[global] Instance Eff_ret : MRet Eff := λ A a, (a, []).
#[global] Instance Eff_bind : MBind Eff := λ A B k m,
  let '(a, t1) := m in let '(b, t2) := k a in (b, (t1 ++ t2)%list).

Definition call (e : Event) : Eff unit := (tt, [e]).

(** The calls of a computation. *)
Definition trace {A : Type} (m : Eff A) : list Event := m.2.

(** [f?.(x)]: call [f] when it is defined. *)
Definition optional_call {A : Type} (f : option FnRef) (ev : FnRef → A → Event)
    (x : A) : Eff unit :=
  match f with
  | Some g => call (ev g x)
  | None => mret tt
  end.

(** What the hook hands to [useQuery]: the key, the fetcher and the options
    [{...queryOptions, enabled, onSuccess, onError}]. *)
Record UseQueryCall : Type := {
  uq_queryKey : JsVal;
  uq_queryFn : QueryFunctionContext → Eff unit;
  uq_enabled : bool;
  uq_onSuccess : JsVal → Eff unit;
  uq_onError : HttpError → Eff unit;
  uq_rest : MetaQuery;
}.

(** The hooks and helpers [useOne] imports, and [Number::toString] of the
    runtime, which prints a safe integer as its decimal digits. *)
Class Providers : Type := {
  number_to_string : Z → string;
  number_to_string_safe n : safe_integer n → number_to_string n = pretty n;
  useResource : option string → ResourceResolution;
  translate : string → MetaQuery → string → string;
  getMeta : option IResourceItem → option MetaQuery → MetaQuery;
  pickNotDeprecated : option MetaQuery → option MetaQuery → option MetaQuery;
  pickDataProvider : string → option string → list IResourceItem → string;
  queryKeys : string → string → option MetaQuery → option BaseKey → JsVal;
  useQuery : UseQueryCall → MetaQuery;
  useLoadingOvertime : UseLoadingOvertimeProps → JsVal;
}.

(** ** The hook *)

Section UseOne.
Context `{Providers}.

(** [`${id}`]: how a template literal renders an optional key. *)
Definition template_key (id : option BaseKey) : string :=
  match id with
  | Some (KeyStr s) => s
  | Some (KeyNum n) => number_to_string n
  | None => "undefined"
  end.

(** [checkError(err)]: the [mutate] of [useOnError]. *)
Definition checkError (err : HttpError) : Eff unit := call (CheckError err).

(** [handleNotification(notification, fallbackNotification?)]. *)
Definition handleNotification (config fallback : option OpenNotificationParams)
    : Eff unit :=
  call (HandleNotification config fallback).

(** [ids: id ? [id] : []]. *)
Definition subscription_ids (id : option BaseKey) : JsVal :=
  if truthy_key id then JArr [opt_key_value id] else JArr [].

(** The [params] of the subscription: [liveParams] is spread last. *)
Definition subscription_params (id : option BaseKey) (combinedMeta : MetaQuery)
    (liveParams : option MetaQuery) : MetaQuery :=
  default ∅ liveParams ∪
    <["subscriptionType" := JStr "useOne"]>
      (<["metaData" := JObj combinedMeta]>
        (<["meta" := JObj combinedMeta]>
          (<["id" := opt_key_value id]>
            {["ids" := subscription_ids id]}))).

(** The [enabled] of the subscription. *)
Definition subscription_enabled (queryOptions : option UseQueryOptions)
    (resource : option IResourceItem) (id : option BaseKey) : bool :=
  match queryOptions ≫= qo_enabled with
  | Some b => b
  | None => defined (res_name <$> resource) && defined id
  end.

(** The [enabled] of the query. *)
Definition query_enabled (queryOptions : option UseQueryOptions)
    (id : option BaseKey) : bool :=
  match queryOptions ≫= qo_enabled with
  | Some b => b
  | None => defined id
  end.

(** [{ queryKey, pageParam, signal }]. *)
Definition queryContext (ctx : QueryFunctionContext) : JsVal :=
  JObj (<["signal" := signal ctx]>
         (<["pageParam" := pageParam ctx]>
           {["queryKey" := queryKey ctx]})).

(** The query function: one call of the picked data provider's [getOne]. *)
Definition queryFn (pickedDataProvider : string) (resource : option IResourceItem)
    (id : option BaseKey) (combinedMeta : MetaQuery) (ctx : QueryFunctionContext)
    : Eff unit :=
  call (GetOne pickedDataProvider
    {| go_resource := default "" (res_name <$> resource);
       go_id := id;
       go_meta := <["queryContext" := queryContext ctx]> combinedMeta;
       go_metaData := <["queryContext" := queryContext ctx]> combinedMeta |}).

(** [{ id, ...combinedMeta }]. *)
Definition notification_values (id : option BaseKey) (combinedMeta : MetaQuery)
    : MetaQuery :=
  combinedMeta ∪ {["id" := opt_key_value id]}.

(** [onSuccess] of the query options. *)
Definition onSuccess (props : UseOneProps) (identifier : string)
    (combinedMeta : MetaQuery) (data : JsVal) : Eff unit :=
  optional_call (queryOptions props ≫= qo_onSuccess) QueryOnSuccess data ;;
  notificationConfig ←
    match successNotification props with
    | Some (Computed f) =>
        let values := notification_values (id props) combinedMeta in
        call (SuccessNotification data values identifier) ;;
        mret (f data values identifier)
    | Some (Static d) => mret (Some d)
    | None => mret None
    end;
  handleNotification notificationConfig None.

(** The fallback notification of the error path. *)
Definition error_fallback (id : option BaseKey) (identifier : string)
    (err : HttpError) : OpenNotificationParams :=
  {| np_key := Some (template_key id ++ "-" ++ identifier ++ "-getOne-notification");
     np_message :=
       translate "notifications.error"
         {["statusCode" := JNum (statusCode err)]}
         ("Error (status code: " ++ number_to_string (statusCode err) ++ ")");
     np_description := Some (message err);
     np_type := error |}.

(** [onError] of the query options. *)
Definition onError (props : UseOneProps) (identifier : string)
    (combinedMeta : MetaQuery) (err : HttpError) : Eff unit :=
  checkError err ;;
  optional_call (queryOptions props ≫= qo_onError) QueryOnError err ;;
  notificationConfig ←
    match errorNotification props with
    | Some (Computed f) =>
        let values := notification_values (id props) combinedMeta in
        call (ErrorNotification err values identifier) ;;
        mret (f err values identifier)
    | Some (Static d) => mret (Some d)
    | None => mret None
    end;
  handleNotification notificationConfig (Some (error_fallback (id props) identifier err)).

(** One render of the hook: what it registers, what it asks of the cache
    engine and of the stall watchdog, and what it returns. *)
Record UseOneRender : Type := {
  subscription : UseResourceSubscriptionProps;
  query : UseQueryCall;
  overtime : UseLoadingOvertimeProps;
  returned : MetaQuery;
}.

Definition useOne (props : UseOneProps) : UseOneRender :=
  let r := useResource (resourceFromProp props) in
  let preferredMeta := pickNotDeprecated (meta props) (metaData props) in
  let pickedDataProvider :=
    pickDataProvider (identifier r) (dataProviderName props) (resources r) in
  let combinedMeta := getMeta (resource r) preferredMeta in
  let subscription :=
    {| sub_resource := identifier r;
       sub_types := ["*"];
       sub_channel :=
         "resources/" ++ default "undefined" (res_name <$> resource r);
       sub_params := subscription_params (id props) combinedMeta (liveParams props);
       sub_enabled := subscription_enabled (queryOptions props) (resource r) (id props);
       sub_liveMode := liveMode props;
       sub_onLiveEvent := onLiveEvent props |} in
  let query :=
    {| uq_queryKey :=
         queryKeys (identifier r) pickedDataProvider preferredMeta (id props);
       uq_queryFn := queryFn pickedDataProvider (resource r) (id props) combinedMeta;
       uq_enabled := query_enabled (queryOptions props) (id props);
       uq_onSuccess := onSuccess props (identifier r) combinedMeta;
       uq_onError := onError props (identifier r) combinedMeta;
       uq_rest := default ∅ (qo_rest <$> queryOptions props) |} in
  let queryResponse := useQuery query in
  let overtime :=
    {| lo_isLoading := default JUndefined (queryResponse !! "isFetching");
       lo_interval := overtimeOptions props ≫= interval;
       lo_onInterval := overtimeOptions props ≫= onInterval |} in
  let elapsedTime := useLoadingOvertime overtime in
  {| subscription := subscription;
     query := query;
     overtime := overtime;
     returned := <["overtime" := JObj {["elapsedTime" := elapsedTime]}]> queryResponse |}.

End UseOne.

(** ** The collaborators the properties are read against *)

(** Modelled from the spec: [pickNotDeprecated] lives in [@definitions].
    The explicit [meta] wins; the deprecated [metaData] is the fallback when
    the explicit one is absent. *)
Definition spec_pickNotDeprecated (meta metaData : option MetaQuery)
    : option MetaQuery :=
  match meta with
  | Some m => Some m
  | None => metaData
  end.

(** Modelled from the spec: [getMeta] is returned by [useMeta] of [@hooks].
    The metadata picked at the call site comes first and the resource-level
    default metadata fills the remaining gaps. *)
Definition spec_getMeta (resource : option IResourceItem)
    (meta : option MetaQuery) : MetaQuery :=
  default ∅ meta ∪ default ∅ (res_meta <$> resource).

(** The providers of an application whose metadata helpers are the two
    above. *)
Definition with_spec_meta (P : Providers) : Providers :=
  {| number_to_string := @number_to_string P;
     number_to_string_safe := @number_to_string_safe P;
     useResource := @useResource P;
     translate := @translate P;
     getMeta := spec_getMeta;
     pickNotDeprecated := spec_pickNotDeprecated;
     pickDataProvider := @pickDataProvider P;
     queryKeys := @queryKeys P;
     useQuery := @useQuery P;
     useLoadingOvertime := @useLoadingOvertime P |}.

(** Modelled from the spec: [handleNotification] is returned by
    [useHandleNotification] of [@hooks].  The dispatcher opens the descriptor
    it is given; when the descriptor is absent it opens the fallback, if there
    is one. *)
Definition notify (config fallback : option OpenNotificationParams)
    : list OpenNotificationParams :=
  match config, fallback with
  | Some d, _ => [d]
  | None, Some d => [d]
  | None, None => []
  end.

(** The notifications a sequence of calls opens. *)
Definition notifications (t : list Event) : list OpenNotificationParams :=
  t ≫= λ e,
    match e with
    | HandleNotification config fallback => notify config fallback
    | _ => []
    end.

(** Modelled from the spec: the cache engine behind [useQuery] (react-query,
    an external library).  A query that is not enabled stays dormant; an
    enabled one runs the fetcher, and a pending fetch settles once, with
    success or with an error, running the matching callback of the options.
    A settled query can be fetched again. *)
Inductive Phase : Type :=
| idle
| fetching
| succeeded (data : JsVal)
| failed (err : HttpError).

Definition isFetching (p : Phase) : bool :=
  match p with
  | fetching => true
  | _ => false
  end.

Inductive Signal : Type :=
| Fetch (ctx : QueryFunctionContext)
| Resolve (data : JsVal)
| Reject (err : HttpError).

Definition engine_step (q : UseQueryCall) (p : Phase) (s : Signal) : Eff Phase :=
  match s, p with
  | Fetch _, fetching => mret p
  | Fetch ctx, _ =>
      if uq_enabled q then uq_queryFn q ctx ;; mret fetching else mret p
  | Resolve data, fetching => uq_onSuccess q data ;; mret (succeeded data)
  | Reject err, fetching => uq_onError q err ;; mret (failed err)
  | _, _ => mret p
  end.

Fixpoint engine_run (q : UseQueryCall) (p : Phase) (ss : list Signal) : Eff Phase :=
  match ss with
  | [] => mret p
  | s :: ss' => p' ← engine_step q p s; engine_run q p' ss'
  end.

(** The calls that reach a data provider. *)
Definition getOne_calls (t : list Event) : list GetOneParams :=
  t ≫= λ e,
    match e with
    | GetOne _ params => [params]
    | _ => []
    end.

(** ** An application to run the hook in *)

(** The registry of the example application. *)
Definition example_resources : list IResourceItem :=
  [ {| res_name := "users"; res_identifier := "users"; res_meta := ∅ |};
    {| res_name := "posts"; res_identifier := "posts"; res_meta := ∅ |} ].

(** Providers of an application with the registry above, no i18n provider
    (the translator answers with the default message), one data provider and
    a settled query. *)
Definition example_providers : Providers :=
  {| number_to_string := pretty;
     number_to_string_safe := λ _ _, eq_refl;
     useResource := λ name,
       let found :=
         name ≫= λ n, find (λ r, String.eqb (res_name r) n) example_resources in
       {| resources := example_resources;
          resource := found;
          identifier := default "" name |};
     translate := λ _ _ defaultMessage, defaultMessage;
     getMeta := spec_getMeta;
     pickNotDeprecated := spec_pickNotDeprecated;
     pickDataProvider := λ _ name _, default "default" name;
     queryKeys := λ identifier dataProvider _ id,
       JArr [JStr "data"; JStr dataProvider; JStr identifier; JStr "one";
             opt_key_value id];
     useQuery := λ _,
       <["isFetching" := JBool false]> {["status" := JStr "success"]};
     useLoadingOvertime := λ _, JUndefined |}.

Definition example_props (resource : option string) (id : option BaseKey)
    (enabled : option bool) (liveParams : option MetaQuery) : UseOneProps :=
  {| resourceFromProp := resource;
     id := id;
     queryOptions :=
       Some {| qo_enabled := enabled; qo_onSuccess := None; qo_onError := None;
               qo_rest := ∅ |};
     successNotification := None;
     errorNotification := None;
     meta := None;
     metaData := None;
     liveMode := None;
     onLiveEvent := None;
     liveParams := liveParams;
     dataProviderName := None;
     overtimeOptions := None |}.

Definition example_context : QueryFunctionContext :=
  {| queryKey := JArr []; pageParam := JUndefined; signal := JHost 0 |}.

(** The same application with an i18n provider that answers with the key
    itself and a [getMeta] that leaves the resource defaults out. *)
Definition example_providers_i18n : Providers :=
  {| number_to_string := pretty;
     number_to_string_safe := λ _ _, eq_refl;
     useResource := @useResource example_providers;
     translate := λ key _ _, key;
     getMeta := λ _ meta, default ∅ meta;
     pickNotDeprecated := @pickNotDeprecated example_providers;
     pickDataProvider := @pickDataProvider example_providers;
     queryKeys := @queryKeys example_providers;
     useQuery := λ _, {["isFetching" := JBool true]};
     useLoadingOvertime := λ _, JNum 1000 |}.

(** An application whose one resource, whatever its name, is routed under
    the identifier ["blog"]. *)
Definition example_providers_named (name : string) : Providers :=
  {| number_to_string := pretty;
     number_to_string_safe := λ _ _, eq_refl;
     useResource := λ _,
       let item :=
         {| res_name := name; res_identifier := "blog"; res_meta := ∅ |} in
       {| resources := [item]; resource := Some item; identifier := "blog" |};
     translate := @translate example_providers;
     getMeta := spec_getMeta;
     pickNotDeprecated := spec_pickNotDeprecated;
     pickDataProvider := @pickDataProvider example_providers;
     queryKeys := @queryKeys example_providers;
     useQuery := @useQuery example_providers;
     useLoadingOvertime := @useLoadingOvertime example_providers |}.

(** Props with a computed success descriptor that yields none. *)
Definition example_computed_props : UseOneProps :=
  {| resourceFromProp := Some "blog";
     id := Some (KeyNum 5);
     queryOptions := None;
     successNotification := Some (Computed (λ _ _ _, None));
     errorNotification := None;
     meta := None;
     metaData := None;
     liveMode := None;
     onLiveEvent := None;
     liveParams := None;
     dataProviderName := None;
     overtimeOptions := None |}.

(** ** The application shell

    [examples/with-nextjs-auth/pages/_app.tsx]: the component that wraps
    every page of the example application in [<Refine>]. *)

(** [ExtendedNextPage]: a page component with its optional [noLayout]. *)
Record ExtendedNextPage : Type := {
  page : FnRef;
  noLayout : option bool;
}.

(** A React element: a page component applied to its props, a named
    component with props and children, or a fragment. *)
#[warnings="-register-all"]
Inductive Element : Type :=
| Render (component : FnRef) (props : MetaQuery)
| Tag (name : string) (props : MetaQuery) (children : list Element)
| Fragment (children : list Element).

(** What [_app.tsx] imports from other modules. *)
Record AppImports : Type := {
  routerProvider : JsVal;
  authProvider : JsVal;
  dataProvider : JsVal → JsVal;
  API_URL : JsVal;
  notificationProvider : JsVal;
}.

(** [renderComponent]: a page with a truthy [noLayout] is rendered bare,
    any other page inside [<Layout>]. *)
Definition renderComponent (Component : ExtendedNextPage) (pageProps : MetaQuery)
    : Element :=
  match noLayout Component with
  | Some true => Render (page Component) pageProps
  | _ => Tag "Layout" ∅ [Render (page Component) pageProps]
  end.

(** The props of [<Refine>]. *)
Definition refine_props (imports : AppImports) : MetaQuery :=
  <["notificationProvider" := notificationProvider imports]>
    (<["options" :=
         JObj (<["warnWhenUnsavedChanges" := JBool true]>
                {["syncWithLocation" := JBool true]})]>
      (<["resources" :=
           JArr
             [ JObj (<["list" := JStr "/users"]> {["name" := JStr "users"]});
               JObj (<["show" := JStr "/posts/show/:id"]>
                      (<["edit" := JStr "/posts/edit/:id"]>
                        (<["create" := JStr "/posts/create"]>
                          (<["list" := JStr "/posts"]>
                            {["name" := JStr "posts"]})))) ]]>
        (<["dataProvider" := dataProvider imports (API_URL imports)]>
          (<["authProvider" := authProvider imports]>
            {["routerProvider" := routerProvider imports]})))).

(** [MyApp]. *)
Definition MyApp (imports : AppImports) (Component : ExtendedNextPage)
    (pageProps : MetaQuery) : Element :=
  Fragment
    [ Tag "GitHubBanner" ∅ [];
      Tag "Refine" (refine_props imports)
        [ renderComponent Component pageProps;
          Tag "UnsavedChangesNotifier" ∅ [] ] ].

(** The page components an element renders, each with the named components
    it sits in, outermost first, and with its props. *)
Fixpoint rendered (path : list string) (e : Element)
    : list (list string * FnRef * MetaQuery) :=
  match e with
  | Render c props => [(path, c, props)]
  | Tag name _ children => children ≫= rendered (path ++ [name])%list
  | Fragment children => children ≫= rendered path
  end.

(** The marks of an element in document order: where a named component
    opens and closes, and where a page component is rendered. *)
Inductive Mark : Type :=
| Open (name : string)
| Close (name : string)
| PageMark (component : FnRef) (props : MetaQuery).

Fixpoint outline (e : Element) : list Mark :=
  match e with
  | Render c props => [PageMark c props]
  | Tag name _ children => Open name :: (children ≫= outline) ++ [Close name]
  | Fragment children => children ≫= outline
  end%list.

(** ** Properties *)

(** *** The writer monad *)

Lemma trace_ret {A : Type} (a : A) : trace (mret a : Eff A) = [].
Proof. reflexivity. Qed.

Lemma trace_bind {A B : Type} (m : Eff A) (k : A → Eff B) :
  trace (m ≫= k) = (trace m ++ trace (k m.1))%list.
Proof.
  destruct m as [a t]. unfold trace, mbind, Eff_bind. simpl.
  destruct (k a) as [b t']. reflexivity.
Qed.

(** *** Strings *)

Lemma prefix_app (part rest : string) : String.prefix part (part ++ rest) = true.
Proof.
  induction part as [|a part IH]; [by destruct rest|].
  change (String a part ++ rest) with (String a (part ++ rest)). simpl.
  destruct (Ascii.ascii_dec a a); [exact IH|done].
Qed.

Lemma includes_prefix (s part : string) :
  String.prefix part s = true → includes s part = true.
Proof. intros Hpre. destruct s; cbn [includes]; by rewrite Hpre. Qed.

(** A string that is put between two others occurs in the result. *)
Lemma includes_app (before part after : string) :
  includes (before ++ part ++ after) part = true.
Proof.
  induction before as [|a before IH].
  - change ("" ++ part ++ after) with (part ++ after).
    apply includes_prefix, prefix_app.
  - change (String a before ++ part ++ after)
      with (String a (before ++ part ++ after)).
    cbn [includes]. rewrite IH. apply orb_true_r.
Qed.

(** *** The cache engine *)

(** A query that is not enabled never leaves the dormant state and makes no
    call, whatever the engine is asked. *)
Lemma engine_run_disabled (q : UseQueryCall) (ss : list Signal) :
  uq_enabled q = false → engine_run q idle ss = (idle, []).
Proof.
  intros Hoff. induction ss as [|s ss IH]; [reflexivity|].
  simpl. destruct s; simpl; rewrite ?Hoff; simpl; rewrite IH; reflexivity.
Qed.

(** The first fetch of an enabled query runs the fetcher and nothing else. *)
Lemma engine_run_fetch (q : UseQueryCall) (ctx : QueryFunctionContext) :
  uq_enabled q = true →
  trace (engine_run q idle [Fetch ctx]) = trace (uq_queryFn q ctx) ∧
  (engine_run q idle [Fetch ctx]).1 = fetching.
Proof.
  intros Hon. simpl. rewrite Hon.
  destruct (uq_queryFn q ctx) as [[] t]. simpl.
  unfold trace. simpl. rewrite !app_nil_r. done.
Qed.

(** A pending fetch that settles runs the matching callback of the
    options, once. *)
Lemma engine_step_settle (q : UseQueryCall) (data : JsVal) (err : HttpError) :
  trace (engine_step q fetching (Resolve data)) = trace (uq_onSuccess q data) ∧
  trace (engine_step q fetching (Reject err)) = trace (uq_onError q err).
Proof.
  simpl. destruct (uq_onSuccess q data) as [[] t1], (uq_onError q err) as [[] t2].
  unfold trace. simpl. rewrite !app_nil_r. done.
Qed.

Section Properties.
Context `{Providers}.

(** *** Metadata *)

Lemma notification_values_lookup (id : option BaseKey) (combinedMeta : MetaQuery)
    (k : string) :
  notification_values id combinedMeta !! k =
    match combinedMeta !! k with
    | Some v => Some v
    | None => if decide (k = "id") then Some (opt_key_value id) else None
    end.
Proof.
  unfold notification_values. rewrite lookup_union, lookup_singleton.
  destruct (combinedMeta !! k); repeat case_decide; simplify_eq; reflexivity.
Qed.

(** The base parameters of the subscription that [liveParams] leaves alone
    are the ones the hook wrote. *)
Lemma subscription_params_meta (id : option BaseKey) (combinedMeta : MetaQuery)
    (liveParams : option MetaQuery) :
  subscription_params id combinedMeta liveParams !! "meta" =
    Some (default (JObj combinedMeta) (default ∅ liveParams !! "meta")) ∧
  subscription_params id combinedMeta liveParams !! "metaData" =
    Some (default (JObj combinedMeta) (default ∅ liveParams !! "metaData")).
Proof.
  unfold subscription_params. rewrite !lookup_union.
  split.
  - destruct (default ∅ liveParams !! "meta"); reflexivity.
  - destruct (default ∅ liveParams !! "metaData"); reflexivity.
Qed.

(** *** The live subscription *)

(** C6: the [enabled] flag of the live-subscription registration is the
    explicit [queryOptions.enabled] when one is defined, and otherwise holds
    exactly when the resource name and the record key are both defined. *)
Theorem subscription_enabled_flag (props : UseOneProps) :
  let r := useResource (resourceFromProp props) in
  sub_enabled (subscription (useOne props)) =
    match queryOptions props with
    | Some {| qo_enabled := Some b |} => b
    | _ => bool_decide (is_Some (res_name <$> resource r) ∧ is_Some (id props))
    end.
Proof.
  simpl. unfold subscription_enabled.
  destruct (queryOptions props) as [[[b|] ? ? ?]|]; simpl; try reflexivity;
    destruct (resource (useResource (resourceFromProp props))), (id props);
    simpl; try reflexivity; symmetry;
    first
      [ apply bool_decide_eq_true; split; eexists; reflexivity
      | apply bool_decide_eq_false; intros [[? ?] [? ?]]; discriminate ].
Qed.

(** *** The settle callbacks *)

(** The calls of the success path, in order. *)
Lemma onSuccess_trace (props : UseOneProps) (identifier : string)
    (combinedMeta : MetaQuery) (data : JsVal) :
  trace (onSuccess props identifier combinedMeta data) =
    (match queryOptions props ≫= qo_onSuccess with
     | Some g => [QueryOnSuccess g data]
     | None => []
     end ++
     match successNotification props with
     | Some (Computed f) =>
         let values := notification_values (id props) combinedMeta in
         [SuccessNotification data values identifier;
          HandleNotification (f data values identifier) None]
     | Some (Static d) => [HandleNotification (Some d) None]
     | None => [HandleNotification None None]
     end)%list.
Proof.
  unfold onSuccess.
  destruct (queryOptions props ≫= qo_onSuccess) as [g|];
    destruct (successNotification props) as [[d|f]|]; reflexivity.
Qed.

(** The calls of the error path, in order. *)
Lemma onError_trace (props : UseOneProps) (identifier : string)
    (combinedMeta : MetaQuery) (err : HttpError) :
  trace (onError props identifier combinedMeta err) =
    (CheckError err ::
     match queryOptions props ≫= qo_onError with
     | Some g => [QueryOnError g err]
     | None => []
     end ++
     let fallback := Some (error_fallback (id props) identifier err) in
     match errorNotification props with
     | Some (Computed f) =>
         let values := notification_values (id props) combinedMeta in
         [ErrorNotification err values identifier;
          HandleNotification (f err values identifier) fallback]
     | Some (Static d) => [HandleNotification (Some d) fallback]
     | None => [HandleNotification None fallback]
     end)%list.
Proof.
  unfold onError.
  destruct (queryOptions props ≫= qo_onError) as [g|];
    destruct (errorNotification props) as [[d|f]|]; reflexivity.
Qed.

(** C7, as the code has it: on a success settle the caller's
    [queryOptions.onSuccess] runs first with the data; then the success
    descriptor is computed, a function descriptor being called once with the
    data, [{id, ...combinedMeta}] and, as third argument, the resource
    identifier string; then the result goes to [handleNotification] with no
    second argument. *)
Theorem onSuccess_order (props : UseOneProps) (data : JsVal) :
  let r := useResource (resourceFromProp props) in
  let combinedMeta :=
    getMeta (resource r) (pickNotDeprecated (meta props) (metaData props)) in
  let values :=
    combinedMeta ∪
      {["id" := match id props with
                | Some (KeyStr s) => JStr s
                | Some (KeyNum n) => JNum n
                | None => JUndefined
                end]} in
  trace (uq_onSuccess (query (useOne props)) data) =
    (match queryOptions props ≫= qo_onSuccess with
     | Some g => [QueryOnSuccess g data]
     | None => []
     end ++
     match successNotification props with
     | Some (Computed f) =>
         [SuccessNotification data values (identifier r);
          HandleNotification (f data values (identifier r)) None]
     | Some (Static d) => [HandleNotification (Some d) None]
     | None => [HandleNotification None None]
     end)%list.
Proof.
  intros r combinedMeta values.
  assert (Hvalues : notification_values (id props) combinedMeta = values).
  { subst values. unfold notification_values.
    destruct (id props) as [[s|n]|]; reflexivity. }
  cbn [query uq_onSuccess useOne]. rewrite onSuccess_trace.
  fold r combinedMeta. cbv zeta. rewrite Hvalues. reflexivity.
Qed.

(** C3: on an error settle the error path makes one pass, in this order:
    [checkError] on the error, the caller's [queryOptions.onError], the
    computation of the error descriptor, and its dispatch; so the
    auth-escalation call comes first and once, and the one call of
    [handleNotification] comes last. *)
Theorem onError_order (props : UseOneProps) (err : HttpError) :
  let r := useResource (resourceFromProp props) in
  let combinedMeta :=
    getMeta (resource r) (pickNotDeprecated (meta props) (metaData props)) in
  let values := combinedMeta ∪ {["id" := opt_key_value (id props)]} in
  let fallback := Some (error_fallback (id props) (identifier r) err) in
  trace (uq_onError (query (useOne props)) err) =
    (CheckError err ::
     match queryOptions props ≫= qo_onError with
     | Some g => [QueryOnError g err]
     | None => []
     end ++
     match errorNotification props with
     | Some (Computed f) =>
         [ErrorNotification err values (identifier r);
          HandleNotification (f err values (identifier r)) fallback]
     | Some (Static d) => [HandleNotification (Some d) fallback]
     | None => [HandleNotification None fallback]
     end)%list.
Proof. intros r combinedMeta values fallback. apply onError_trace. Qed.

(** C2, as the code has it: on an error settle for which the caller gave no
    error descriptor, or for which the computed descriptor is absent, one
    notification is opened: the default one.  Its key is
    ["{id}-{identifier}-getOne-notification"], its message is what the
    translator answers for ["notifications.error"], the status code and the
    default text ["Error (status code: {statusCode})"], its description is
    the error's message and its type is [error].  The default text contains
    the status code, and so does the message whenever the translator answers
    with the default text. *)
Theorem onError_default_notification (props : UseOneProps) (err : HttpError) :
  let r := useResource (resourceFromProp props) in
  let combinedMeta :=
    getMeta (resource r) (pickNotDeprecated (meta props) (metaData props)) in
  let values := combinedMeta ∪ {["id" := opt_key_value (id props)]} in
  let digits (n : Z) :=
    if decide (safe_integer n) then pretty n else number_to_string n in
  let defaultMessage := "Error (status code: " ++ digits (statusCode err) ++ ")" in
  let translated :=
    translate "notifications.error" {["statusCode" := JNum (statusCode err)]}
      defaultMessage in
  errorNotification props = None ∨
    (∃ f, errorNotification props = Some (Computed f) ∧
          f err values (identifier r) = None) →
  notifications (trace (uq_onError (query (useOne props)) err)) =
    [ {| np_key :=
           Some (match id props with
                 | Some (KeyStr s) => s
                 | Some (KeyNum n) => digits n
                 | None => "undefined"
                 end ++ "-" ++ identifier r ++ "-getOne-notification");
         np_message := translated;
         np_description := Some (message err);
         np_type := error |} ] ∧
  includes defaultMessage (digits (statusCode err)) = true ∧
  (translated = defaultMessage →
   includes translated (digits (statusCode err)) = true).
Proof.
  intros r combinedMeta values digits defaultMessage translated Habsent.
  assert (Hdigits : ∀ n, number_to_string n = digits n).
  { intros n. subst digits. cbv beta. case_decide; [|reflexivity].
    by apply number_to_string_safe. }
  assert (Hincl : includes defaultMessage (digits (statusCode err)) = true).
  { apply includes_app. }
  split; [|split; [exact Hincl|by intros ->]].
  cbn [query uq_onError useOne]. rewrite onError_trace.
  fold r combinedMeta.
  assert (Hfallback :
    error_fallback (id props) (identifier r) err =
      {| np_key :=
           Some (match id props with
                 | Some (KeyStr s) => s
                 | Some (KeyNum n) => digits n
                 | None => "undefined"
                 end ++ "-" ++ identifier r ++ "-getOne-notification");
         np_message := translated;
         np_description := Some (message err);
         np_type := error |}).
  { unfold error_fallback, template_key. subst translated defaultMessage.
    rewrite Hdigits. destruct (id props) as [[s|n]|]; rewrite ?Hdigits;
      reflexivity. }
  destruct (queryOptions props ≫= qo_onError) as [g|];
    destruct Habsent as [Hnone|(f & Hcomputed & Hf)];
    rewrite ?Hnone, ?Hcomputed; cbv zeta;
    unfold notification_values; fold values; rewrite ?Hf; simpl;
    by rewrite Hfallback.
Qed.

(** C10: on a success settle for which the caller gave no success descriptor,
    or for which the computed descriptor is absent, [handleNotification] is
    called with neither a descriptor nor a fallback, and no notification is
    opened. *)
Theorem onSuccess_no_default_notification (props : UseOneProps) (data : JsVal) :
  let r := useResource (resourceFromProp props) in
  let combinedMeta :=
    getMeta (resource r) (pickNotDeprecated (meta props) (metaData props)) in
  let values := combinedMeta ∪ {["id" := opt_key_value (id props)]} in
  successNotification props = None ∨
    (∃ f, successNotification props = Some (Computed f) ∧
          f data values (identifier r) = None) →
  let t := trace (uq_onSuccess (query (useOne props)) data) in
  (∀ config fallback,
     HandleNotification config fallback ∈ t → config = None ∧ fallback = None) ∧
  HandleNotification None None ∈ t ∧
  notifications t = [].
Proof.
  intros r combinedMeta values Habsent t. subst t. simpl. rewrite onSuccess_trace.
  destruct Habsent as [Hnone|(f & Hcomputed & Hf)];
    rewrite ?Hnone, ?Hcomputed; cbv zeta;
    unfold notification_values; fold r combinedMeta values; rewrite ?Hf;
    destruct (queryOptions props ≫= qo_onSuccess) as [g|]; simpl;
    (split; [|split; [|reflexivity]]);
    first
      [ solve [intros config fallback Hin; set_unfold in Hin; intuition congruence]
      | solve [set_unfold; auto] ].
Qed.

(** *** The fetch *)

(** The fetcher makes one call: [getOne] of the picked data provider. *)
Lemma queryFn_calls (dp : string) (resource : option IResourceItem)
    (id : option BaseKey) (combinedMeta : MetaQuery) (ctx : QueryFunctionContext) :
  getOne_calls (trace (queryFn dp resource id combinedMeta ctx)) =
    [ {| go_resource := default "" (res_name <$> resource);
         go_id := id;
         go_meta := <["queryContext" := queryContext ctx]> combinedMeta;
         go_metaData := <["queryContext" := queryContext ctx]> combinedMeta |} ].
Proof. reflexivity. Qed.

(** C1, as the code has it: with an undefined [id] and no explicit
    [queryOptions.enabled] (or an explicit [false]) the query is not enabled,
    so no [getOne] call occurs and the query is never fetching; with
    [enabled] forced to [true] the query is enabled and its fetch calls
    [getOne] with the undefined [id]. *)
Theorem useOne_undefined_id_fetch (props : UseOneProps)
    (ctx : QueryFunctionContext) (ss : list Signal) :
  id props = None →
  let q := query (useOne props) in
  match queryOptions props ≫= qo_enabled with
  | Some true =>
      uq_enabled q = true ∧
      isFetching (engine_run q idle [Fetch ctx]).1 = true ∧
      go_id <$> getOne_calls (trace (engine_run q idle [Fetch ctx])) = [None]
  | _ =>
      uq_enabled q = false ∧
      isFetching (engine_run q idle ss).1 = false ∧
      getOne_calls (trace (engine_run q idle ss)) = []
  end.
Proof.
  intros Hid q.
  assert (Hen : uq_enabled q = default false (queryOptions props ≫= qo_enabled)).
  { subst q. simpl. unfold query_enabled. rewrite Hid.
    destruct (queryOptions props ≫= qo_enabled); reflexivity. }
  destruct (queryOptions props ≫= qo_enabled) as [[|]|]; simpl in Hen.
  - split; [exact Hen|].
    destruct (engine_run_fetch q ctx Hen) as [Ht Hp]. rewrite Ht, Hp.
    split; [reflexivity|]. subst q. cbn [query uq_queryFn useOne].
    rewrite queryFn_calls, Hid. reflexivity.
  - rewrite (engine_run_disabled q ss Hen). done.
  - rewrite (engine_run_disabled q ss Hen). done.
Qed.

(** C5, as the code has it: when the resolver finds no resource, only the
    live subscription is disabled by default; the [enabled] flag of the query
    does not look at the resource.  While that flag is false no [getOne] call
    occurs; when it is true the fetch calls [getOne] with the empty string as
    resource name. *)
Theorem useOne_unresolved_resource_fetch (props : UseOneProps)
    (ctx : QueryFunctionContext) (ss : list Signal) :
  resource (useResource (resourceFromProp props)) = None →
  let q := query (useOne props) in
  sub_enabled (subscription (useOne props)) =
    default false (queryOptions props ≫= qo_enabled) ∧
  uq_enabled q =
    default (bool_decide (is_Some (id props))) (queryOptions props ≫= qo_enabled) ∧
  if uq_enabled q
  then go_resource <$> getOne_calls (trace (engine_run q idle [Fetch ctx])) = [""]
  else isFetching (engine_run q idle ss).1 = false ∧
       getOne_calls (trace (engine_run q idle ss)) = [].
Proof.
  intros Hres q. split; [|split].
  - simpl. unfold subscription_enabled. rewrite Hres.
    destruct (queryOptions props ≫= qo_enabled); reflexivity.
  - subst q. simpl. unfold query_enabled.
    destruct (queryOptions props ≫= qo_enabled); [reflexivity|].
    destruct (id props); reflexivity.
  - destruct (uq_enabled q) eqn:Hen.
    + destruct (engine_run_fetch q ctx Hen) as [-> _].
      subst q. cbn [query uq_queryFn useOne].
      rewrite queryFn_calls, Hres. reflexivity.
    + rewrite (engine_run_disabled q ss Hen). done.
Qed.

(** *** Metadata under two names *)

(** C8, as the code has it: the backend adapter always receives the same
    object, [combinedMeta] extended with the [queryContext] bundle, as [meta]
    and as [metaData]; the subscription params hold [combinedMeta] under both
    names whenever [liveParams], which is spread last, defines neither. *)
Theorem meta_metaData_equal (props : UseOneProps) (ctx : QueryFunctionContext) :
  let r := useResource (resourceFromProp props) in
  let combinedMeta :=
    getMeta (resource r) (pickNotDeprecated (meta props) (metaData props)) in
  let forwarded :=
    <["queryContext" :=
        JObj (<["signal" := signal ctx]>
               (<["pageParam" := pageParam ctx]> {["queryKey" := queryKey ctx]}))]>
      combinedMeta in
  let calls := getOne_calls (trace (uq_queryFn (query (useOne props)) ctx)) in
  let params := sub_params (subscription (useOne props)) in
  (go_meta <$> calls = [forwarded] ∧ go_metaData <$> calls = [forwarded]) ∧
  (default ∅ (liveParams props) !! "meta" = None →
   default ∅ (liveParams props) !! "metaData" = None →
   params !! "meta" = Some (JObj combinedMeta) ∧
   params !! "metaData" = Some (JObj combinedMeta)).
Proof.
  intros r combinedMeta forwarded calls params.
  split; [split; reflexivity|].
  intros Hmeta HmetaData.
  subst params. cbn [subscription sub_params useOne]. fold r combinedMeta.
  destruct (subscription_params_meta (id props) combinedMeta (liveParams props))
    as [-> ->].
  rewrite Hmeta, HmetaData. done.
Qed.

(** *** The returned value *)

(** C9: the value [useOne] returns has every field of the query result of
    the cache engine, unchanged, and one more, [overtime.elapsedTime]; the
    stall watchdog reads nothing of the query result but [isFetching], so the
    data, the error and the status reach the caller as the engine gave
    them. *)
Theorem useOne_returns_query_result (props : UseOneProps) :
  let R := useOne props in
  let queryResponse := useQuery (query R) in
  (∀ k : string,
     returned R !! k =
       if decide (k = "overtime")
       then Some (JObj {["elapsedTime" := useLoadingOvertime (overtime R)]})
       else queryResponse !! k) ∧
  (returned R !! "data" = queryResponse !! "data" ∧
   returned R !! "error" = queryResponse !! "error" ∧
   returned R !! "status" = queryResponse !! "status") ∧
  overtime R =
    {| lo_isLoading := default JUndefined (queryResponse !! "isFetching");
       lo_interval := overtimeOptions props ≫= interval;
       lo_onInterval := overtimeOptions props ≫= onInterval |}.
Proof.
  intros R queryResponse. split; [|split; [|reflexivity]].
  - intros k. subst R. simpl. rewrite lookup_insert.
    destruct (decide ("overtime" = k)), (decide (k = "overtime"));
      first [reflexivity | congruence].
  - subst R. simpl. rewrite !lookup_insert_ne by discriminate. done.
Qed.

(** *** The merged metadata *)

(** C4: with the metadata helpers of the specification, the [combinedMeta]
    that reaches the subscription registration and the backend adapter is
    merged in the order explicit, legacy, resource default: an explicit
    [meta] wins, the deprecated [metaData] is used when the explicit one is
    absent, and the default metadata of the resource fills the gaps. *)
Theorem combinedMeta_precedence (props : UseOneProps) (ctx : QueryFunctionContext) :
  let R := @useOne (with_spec_meta H) props in
  let defaults := default ∅ (res_meta <$> resource (useResource (resourceFromProp props))) in
  let fill (picked : MetaQuery) (k : string) :=
    match picked !! k with
    | Some v => Some v
    | None => defaults !! k
    end in
  ∃ combinedMeta : MetaQuery,
    (∀ k : string,
       combinedMeta !! k =
         match meta props, metaData props with
         | Some explicit, _ => fill explicit k
         | None, Some legacy => fill legacy k
         | None, None => defaults !! k
         end) ∧
    go_meta <$> getOne_calls (trace (uq_queryFn (query R) ctx)) =
      [<["queryContext" := queryContext ctx]> combinedMeta] ∧
    sub_params (subscription R) !! "meta" =
      Some (default (JObj combinedMeta) (default ∅ (liveParams props) !! "meta")).
Proof.
  intros R defaults fill.
  exists (spec_getMeta (resource (useResource (resourceFromProp props)))
            (spec_pickNotDeprecated (meta props) (metaData props))).
  split; [|split].
  - intros k. unfold spec_getMeta, spec_pickNotDeprecated, fill.
    fold defaults. rewrite lookup_union.
    destruct (meta props) as [explicit|]; [|destruct (metaData props) as [legacy|]];
      simpl.
    + destruct (explicit !! k), (defaults !! k); reflexivity.
    + destruct (legacy !! k), (defaults !! k); reflexivity.
    + rewrite lookup_empty. destruct (defaults !! k); reflexivity.
  - reflexivity.
  - subst R. cbn [subscription sub_params useOne].
    apply subscription_params_meta.
Qed.

End Properties.

(** ** The example application *)

(** C1, as the specification words it, fails: with an undefined [id] and
    [enabled] forced to [true] the fetch is not skipped and no error is
    raised; the data provider is called with the undefined [id]. *)
Lemma useOne_forced_enabled_calls_getOne_without_id :
  let props := example_props (Some "posts") None (Some true) None in
  let q := query (@useOne example_providers props) in
  id props = None ∧
  queryOptions props ≫= qo_enabled = Some true ∧
  engine_run q idle [Fetch example_context] =
    (fetching,
     [GetOne "default"
        {| go_resource := "posts";
           go_id := None;
           go_meta := {["queryContext" := queryContext example_context]};
           go_metaData := {["queryContext" := queryContext example_context]} |}]).
Proof. repeat split; vm_compute; reflexivity. Qed.

Lemma useOne_undefined_id_fetch_witness :
  (id (example_props (Some "posts") None None None) = None ∧
   let q := query (@useOne example_providers
                     (example_props (Some "posts") None None None)) in
   let ss := [Fetch example_context; Resolve JNull] in
   uq_enabled q = false ∧
   isFetching (engine_run q idle ss).1 = false ∧
   getOne_calls (trace (engine_run q idle ss)) = []) ∧
  (id (example_props (Some "posts") None (Some true) None) = None ∧
   let q := query (@useOne example_providers
                     (example_props (Some "posts") None (Some true) None)) in
   uq_enabled q = true ∧
   isFetching (engine_run q idle [Fetch example_context]).1 = true ∧
   go_id <$> getOne_calls (trace (engine_run q idle [Fetch example_context])) =
     [None]).
Proof.
  split; (split; [reflexivity|]).
  - exact (@useOne_undefined_id_fetch example_providers
             (example_props (Some "posts") None None None)
             example_context [Fetch example_context; Resolve JNull] eq_refl).
  - exact (@useOne_undefined_id_fetch example_providers
             (example_props (Some "posts") None (Some true) None)
             example_context [] eq_refl).
Defined.

(** C2, as the specification words it, fails: with an i18n provider that
    answers with the key the default notification is opened and its message
    does not contain the status code. *)
Lemma onError_translated_message_without_status_code :
  let props := example_props (Some "posts") (Some (KeyNum 5)) None None in
  let err := {| message := "Not Found"; statusCode := 404 |} in
  errorNotification props = None ∧
  notifications
    (trace (uq_onError (query (@useOne example_providers_i18n props)) err)) =
    [ {| np_key := Some "5-posts-getOne-notification";
         np_message := "notifications.error";
         np_description := Some "Not Found";
         np_type := error |} ] ∧
  includes "notifications.error" "404" = false.
Proof. repeat split; vm_compute; reflexivity. Qed.

(** The end-to-end scenario of C2: resource ["posts"], id [5] and an adapter
    that rejects with [{statusCode: 404, message: "Not Found"}], in an
    application with no i18n provider. *)
Lemma onError_default_notification_posts_404 :
  let props := example_props (Some "posts") (Some (KeyNum 5)) None None in
  let err := {| message := "Not Found"; statusCode := 404 |} in
  errorNotification props = None ∧
  notifications
    (trace (uq_onError (query (@useOne example_providers props)) err)) =
    [ {| np_key := Some "5-posts-getOne-notification";
         np_message := "Error (status code: 404)";
         np_description := Some "Not Found";
         np_type := error |} ] ∧
  includes "Error (status code: 404)" "404" = true.
Proof.
  split; [reflexivity|].
  split.
  - exact (proj1 (@onError_default_notification example_providers
                    (example_props (Some "posts") (Some (KeyNum 5)) None None)
                    {| message := "Not Found"; statusCode := 404 |}
                    (or_introl eq_refl))).
  - exact (proj2 (proj2 (@onError_default_notification example_providers
                    (example_props (Some "posts") (Some (KeyNum 5)) None None)
                    {| message := "Not Found"; statusCode := 404 |}
                    (or_introl eq_refl))) eq_refl).
Defined.

(** C7, as the specification words it, fails: the third argument of the
    descriptor function is the identifier string alone; two resources of
    different names under one identifier give the same call. *)
Lemma onSuccess_third_argument_is_identifier :
  let posts := example_providers_named "posts" in
  let articles := example_providers_named "articles" in
  let calls (P : Providers) :=
    trace (uq_onSuccess (query (@useOne P example_computed_props)) JNull) in
  res_name <$> resource (@useResource posts (Some "blog")) = Some "posts" ∧
  res_name <$> resource (@useResource articles (Some "blog")) = Some "articles" ∧
  calls posts =
    [ SuccessNotification JNull {["id" := JNum 5]} "blog";
      HandleNotification None None ] ∧
  calls articles = calls posts.
Proof. repeat split; vm_compute; reflexivity. Qed.

(** C5, as the specification words it, fails: with no resource resolved and a
    defined [id] the query is enabled and the data provider is called with
    the empty string as resource name. *)
Lemma useOne_unresolved_resource_calls_getOne :
  let props := example_props None (Some (KeyNum 5)) None None in
  let q := query (@useOne example_providers props) in
  resource (@useResource example_providers (resourceFromProp props)) = None ∧
  engine_run q idle [Fetch example_context] =
    (fetching,
     [GetOne "default"
        {| go_resource := "";
           go_id := Some (KeyNum 5);
           go_meta := {["queryContext" := queryContext example_context]};
           go_metaData := {["queryContext" := queryContext example_context]} |}]).
Proof. split; vm_compute; reflexivity. Qed.

Lemma useOne_unresolved_resource_fetch_witness :
  let props := example_props None (Some (KeyNum 5)) None None in
  let q := query (@useOne example_providers props) in
  resource (@useResource example_providers (resourceFromProp props)) = None ∧
  sub_enabled (subscription (@useOne example_providers props)) = false ∧
  uq_enabled q = true ∧
  go_resource <$> getOne_calls (trace (engine_run q idle [Fetch example_context])) =
    [""].
Proof.
  split; [reflexivity|].
  exact (@useOne_unresolved_resource_fetch example_providers
           (example_props None (Some (KeyNum 5)) None None)
           example_context [] eq_refl).
Defined.

(** C8, as the specification words it, fails: a [meta] key in [liveParams]
    replaces the one the hook wrote, and [metaData] keeps [combinedMeta]. *)
Lemma subscription_liveParams_override_meta :
  let tenant : MetaQuery := {["tenant" := JStr "acme"]} in
  let props :=
    example_props (Some "posts") (Some (KeyNum 5)) None
      (Some {["meta" := JObj tenant]}) in
  let params := sub_params (subscription (@useOne example_providers props)) in
  params !! "meta" = Some (JObj tenant) ∧
  params !! "metaData" = Some (JObj ∅) ∧
  params !! "meta" ≠ params !! "metaData".
Proof.
  repeat split; try (vm_compute; reflexivity).
  vm_compute. intros Heq. discriminate Heq.
Qed.

Lemma meta_metaData_equal_witness :
  let props := example_props (Some "posts") (Some (KeyNum 5)) None None in
  let forwarded : MetaQuery :=
    {["queryContext" := queryContext example_context]} in
  let calls :=
    getOne_calls
      (trace (uq_queryFn (query (@useOne example_providers props)) example_context)) in
  let params := sub_params (subscription (@useOne example_providers props)) in
  (default ∅ (liveParams props) !! "meta" = None ∧
   default ∅ (liveParams props) !! "metaData" = None) ∧
  (go_meta <$> calls = [forwarded] ∧ go_metaData <$> calls = [forwarded]) ∧
  (params !! "meta" = Some (JObj ∅) ∧ params !! "metaData" = Some (JObj ∅)).
Proof.
  split; [split; reflexivity|].
  split.
  - exact (proj1 (@meta_metaData_equal example_providers
                    (example_props (Some "posts") (Some (KeyNum 5)) None None)
                    example_context)).
  - exact (proj2 (@meta_metaData_equal example_providers
                    (example_props (Some "posts") (Some (KeyNum 5)) None None)
                    example_context) eq_refl eq_refl).
Defined.

(** The end-to-end scenario of C10: a success settle of ["posts"], id [5],
    with no success descriptor. *)
Lemma onSuccess_no_default_notification_posts :
  let props := example_props (Some "posts") (Some (KeyNum 5)) None None in
  let data := JObj {["data" := JObj {["id" := JNum 5]}]} in
  let t := trace (uq_onSuccess (query (@useOne example_providers props)) data) in
  successNotification props = None ∧
  ((∀ config fallback,
      HandleNotification config fallback ∈ t → config = None ∧ fallback = None) ∧
   HandleNotification None None ∈ t ∧
   notifications t = []).
Proof.
  split; [reflexivity|].
  exact (@onSuccess_no_default_notification example_providers
           (example_props (Some "posts") (Some (KeyNum 5)) None None)
           (JObj {["data" := JObj {["id" := JNum 5]}]})
           (or_introl eq_refl)).
Defined.

(** A fetch of ["posts"], id [5], that the adapter rejects with a 401: the
    auth-escalation call comes first, the notification call last, each
    once. *)
Example onError_unauthorized :
  let props := example_props (Some "posts") (Some (KeyNum 5)) None None in
  let err := {| message := "Unauthorized"; statusCode := 401 |} in
  trace (engine_run (query (@useOne example_providers props)) idle
           [Fetch example_context; Reject err]) =
    [ GetOne "default"
        {| go_resource := "posts";
           go_id := Some (KeyNum 5);
           go_meta := {["queryContext" := queryContext example_context]};
           go_metaData := {["queryContext" := queryContext example_context]} |};
      CheckError err;
      HandleNotification None
        (Some {| np_key := Some "5-posts-getOne-notification";
                 np_message := "Error (status code: 401)";
                 np_description := Some "Unauthorized";
                 np_type := error |}) ].
Proof. vm_compute. reflexivity. Qed.

(** ** Further properties of the hook *)

(** *** Strings *)

Lemma string_length_app (s t : string) :
  String.length (s ++ t) = (String.length s + String.length t)%nat.
Proof.
  induction s as [|a s IH]; [reflexivity|].
  change (String a s ++ t) with (String a (s ++ t)). simpl. by rewrite IH.
Qed.

(** Appending the same suffix to different strings gives different
    strings. *)
Lemma string_app_inj_r (t s1 s2 : string) : s1 ++ t = s2 ++ t → s1 = s2.
Proof.
  revert s2. induction s1 as [|a s1 IH]; intros [|b s2] Heq.
  - reflexivity.
  - apply (f_equal String.length) in Heq.
    change (String b s2 ++ t) with (String b (s2 ++ t)) in Heq.
    change ("" ++ t) with t in Heq.
    simpl in Heq. rewrite string_length_app in Heq. lia.
  - apply (f_equal String.length) in Heq.
    change (String a s1 ++ t) with (String a (s1 ++ t)) in Heq.
    change ("" ++ t) with t in Heq.
    simpl in Heq. rewrite string_length_app in Heq. lia.
  - change (String a (s1 ++ t) = String b (s2 ++ t)) in Heq.
    injection Heq as -> Heq. f_equal. by apply IH.
Qed.

Section MoreProperties.
Context `{Providers}.

(** *** The live subscription *)

(** X1: unless [liveParams] gives its own [ids], the [ids] of the
    subscription params hold the record key alone when the key is truthy and
    nothing when it is [undefined], [0] or the empty string. *)
Theorem subscription_ids_of_key (props : UseOneProps) :
  default ∅ (liveParams props) !! "ids" = None →
  sub_params (subscription (useOne props)) !! "ids" =
    Some (JArr match id props with
               | None | Some (KeyStr "") | Some (KeyNum 0) => []
               | Some k => [key_value k]
               end).
Proof.
  intros Hlive. cbn [subscription sub_params useOne].
  unfold subscription_params. rewrite lookup_union, Hlive.
  rewrite !lookup_insert_ne by discriminate. rewrite lookup_singleton_eq.
  unfold subscription_ids.
  destruct (id props) as [[[|a s]|[|n|n]]|]; reflexivity.
Qed.

(** X2: every entry of [liveParams] reaches the subscription params
    unchanged, whatever the hook wrote under that key, and the keys of the
    params are the keys of [liveParams] and the five keys the hook
    writes. *)
Theorem subscription_params_keys (props : UseOneProps) :
  let params := sub_params (subscription (useOne props)) in
  let live := default ∅ (liveParams props) in
  (∀ k v, live !! k = Some v → params !! k = Some v) ∧
  dom params =
    dom live ∪ {["ids"; "id"; "meta"; "metaData"; "subscriptionType"]}.
Proof.
  intros params live. subst params. cbn [subscription sub_params useOne].
  unfold subscription_params. fold live. split.
  - intros k v Hk. by apply lookup_union_Some_l.
  - rewrite dom_union_L, !dom_insert_L, dom_singleton_L. set_solver.
Qed.


(** X4: whenever the live subscription is enabled, the query is enabled
    too. *)
Theorem subscription_enabled_query_enabled (props : UseOneProps) :
  sub_enabled (subscription (useOne props)) = true →
  uq_enabled (query (useOne props)) = true.
Proof.
  cbn [subscription sub_enabled query uq_enabled useOne].
  unfold subscription_enabled, query_enabled.
  destruct (queryOptions props ≫= qo_enabled); [done|].
  intros [_ Hid]%andb_true_iff. exact Hid.
Qed.

(** *** The settle callbacks *)

(** X5: neither settle callback calls the data provider, and the success
    callback never calls [checkError]. *)
Theorem settle_callbacks_never_fetch (props : UseOneProps) (data : JsVal)
    (err : HttpError) :
  let q := query (useOne props) in
  getOne_calls (trace (uq_onSuccess q data)) = [] ∧
  getOne_calls (trace (uq_onError q err)) = [] ∧
  ∀ e, CheckError e ∉ trace (uq_onSuccess q data).
Proof.
  intros q. subst q. cbn [query uq_onSuccess uq_onError useOne].
  rewrite onSuccess_trace, onError_trace.
  destruct (queryOptions props ≫= qo_onSuccess) as [g|];
    destruct (queryOptions props ≫= qo_onError) as [g'|];
    destruct (successNotification props) as [[d|f]|];
    destruct (errorNotification props) as [[d'|f']|];
    (split; [reflexivity|split; [reflexivity|]]);
    intros e Hin; cbv zeta in Hin; set_unfold in Hin; intuition congruence.
Qed.

(** X6: for one resource, the default error notifications of two record
    keys that are safe integers have the same key exactly when the record
    keys are equal, and likewise for two string record keys; a safe integer
    and the string of its decimal digits share their notification key. *)
Theorem default_error_key_injective (ident : string) (e1 e2 : HttpError) :
  (∀ n1 n2 : Z,
     safe_integer n1 → safe_integer n2 →
     np_key (error_fallback (Some (KeyNum n1)) ident e1) =
       np_key (error_fallback (Some (KeyNum n2)) ident e2) ↔ n1 = n2) ∧
  (∀ s1 s2 : string,
     np_key (error_fallback (Some (KeyStr s1)) ident e1) =
       np_key (error_fallback (Some (KeyStr s2)) ident e2) ↔ s1 = s2) ∧
  (∀ n : Z,
     safe_integer n →
     np_key (error_fallback (Some (KeyNum n)) ident e1) =
       np_key (error_fallback (Some (KeyStr (pretty n))) ident e2)).
Proof.
  split; [|split].
  - intros n1 n2 Hn1 Hn2. split; [|by intros ->].
    cbn [np_key error_fallback template_key].
    rewrite !number_to_string_safe by done. intros [= Heq].
    apply string_app_inj_r in Heq. by apply (inj pretty).
  - intros s1 s2. split; [|by intros ->].
    cbn [np_key error_fallback template_key]. intros [= Heq].
    by apply string_app_inj_r in Heq.
  - intros n Hn. cbn [np_key error_fallback template_key].
    by rewrite number_to_string_safe.
Qed.

(** X7: the context object a computed notification descriptor receives,
    on success and on error alike, has every entry of [combinedMeta]
    unchanged; the record key is under [id] only when [combinedMeta] has no
    [id] entry of its own; and the third argument is the resource
    identifier. *)
Theorem notification_context_entries (props : UseOneProps) (data : JsVal)
    (err : HttpError) (values : MetaQuery) (ident : string) :
  let r := useResource (resourceFromProp props) in
  let combinedMeta :=
    getMeta (resource r) (pickNotDeprecated (meta props) (metaData props)) in
  let q := query (useOne props) in
  SuccessNotification data values ident ∈ trace (uq_onSuccess q data) ∨
    ErrorNotification err values ident ∈ trace (uq_onError q err) →
  ident = identifier r ∧
  ∀ k : string,
    values !! k =
      match combinedMeta !! k with
      | Some v => Some v
      | None => if decide (k = "id") then Some (opt_key_value (id props)) else None
      end.
Proof.
  intros r combinedMeta q. subst q. cbn [query uq_onSuccess uq_onError useOne].
  rewrite onSuccess_trace, onError_trace. fold r combinedMeta.
  assert (Hvalues : ∀ k : string,
    notification_values (id props) combinedMeta !! k =
      match combinedMeta !! k with
      | Some v => Some v
      | None => if decide (k = "id") then Some (opt_key_value (id props)) else None
      end).
  { intros k. unfold notification_values. rewrite lookup_union, lookup_singleton.
    destruct (combinedMeta !! k); repeat case_decide; simplify_eq; reflexivity. }
  intros [Hin|Hin];
    destruct (queryOptions props ≫= qo_onSuccess) as [g|];
    destruct (queryOptions props ≫= qo_onError) as [g'|];
    destruct (successNotification props) as [[d|f]|];
    destruct (errorNotification props) as [[d'|f']|];
    cbv zeta in Hin; set_unfold in Hin;
    repeat match type of Hin with _ ∨ _ => destruct Hin as [Hin|Hin] end;
    try discriminate Hin; try contradiction;
    injection Hin as Hv Hi; rewrite Hv, Hi; (split; [reflexivity|exact Hvalues]).
Qed.

End MoreProperties.

(** *** The query key *)

(** X8: two renders that agree on the resource prop, the record key,
    [meta], [metaData] and the data provider name, in applications that agree
    on [useResource], [pickNotDeprecated], [pickDataProvider] and
    [queryKeys], have the same query key, whatever their query options,
    notification descriptors, live props and overtime options, and whatever
    the translator and [getMeta] of the two applications. *)
Theorem queryKey_determined_by (P1 P2 : Providers) (props1 props2 : UseOneProps) :
  @useResource P1 = @useResource P2 →
  @pickNotDeprecated P1 = @pickNotDeprecated P2 →
  @pickDataProvider P1 = @pickDataProvider P2 →
  @queryKeys P1 = @queryKeys P2 →
  resourceFromProp props1 = resourceFromProp props2 →
  id props1 = id props2 →
  meta props1 = meta props2 →
  metaData props1 = metaData props2 →
  dataProviderName props1 = dataProviderName props2 →
  uq_queryKey (query (@useOne P1 props1)) =
    uq_queryKey (query (@useOne P2 props2)).
Proof.
  intros Hres Hpick Hdp Hkeys Hr Hid Hmeta HmetaData Hname.
  cbn [query uq_queryKey useOne].
  by rewrite Hres, Hpick, Hdp, Hkeys, Hr, Hid, Hmeta, HmetaData, Hname.
Qed.

(** ** Properties of the application shell *)

(** X9: [MyApp] renders the page component exactly once, with the page props
    as given, inside [<Refine>] and, unless the page's [noLayout] is true,
    inside [<Layout>]; the banner comes before [<Refine>] and the
    unsaved-changes notifier after the page, and after [<Layout>] when there
    is one, as the last child of [<Refine>]. *)
Theorem MyApp_renders_page_once (imports : AppImports)
    (Component : ExtendedNextPage) (pageProps : MetaQuery) :
  let bare := bool_decide (noLayout Component = Some true) in
  let shown := PageMark (page Component) pageProps in
  rendered [] (MyApp imports Component pageProps) =
    [ (if bare then ["Refine"] else ["Refine"; "Layout"],
       page Component, pageProps) ] ∧
  outline (MyApp imports Component pageProps) =
    ([Open "GitHubBanner"; Close "GitHubBanner"; Open "Refine"] ++
     (if bare then [shown] else [Open "Layout"; shown; Close "Layout"]) ++
     [Open "UnsavedChangesNotifier"; Close "UnsavedChangesNotifier";
      Close "Refine"])%list.
Proof. destruct Component as [c [[|]|]]; split; reflexivity. Qed.

(** ** The example application, continued *)

Lemma subscription_ids_of_key_zero :
  let props := example_props (Some "posts") (Some (KeyNum 0)) None None in
  let R := @useOne example_providers props in
  default ∅ (liveParams props) !! "ids" = None ∧
  sub_params (subscription R) !! "ids" = Some (JArr []).
Proof.
  split; [reflexivity|].
  exact (@subscription_ids_of_key example_providers
           (example_props (Some "posts") (Some (KeyNum 0)) None None) eq_refl).
Defined.


Lemma subscription_enabled_query_enabled_forced :
  let props := example_props None None (Some true) None in
  sub_enabled (subscription (@useOne example_providers props)) = true ∧
  uq_enabled (query (@useOne example_providers props)) = true.
Proof.
  split; [reflexivity|].
  exact (@subscription_enabled_query_enabled example_providers
           (example_props None None (Some true) None) eq_refl).
Defined.

Lemma queryKey_determined_by_witness :
  let props1 := example_props (Some "posts") (Some (KeyNum 5)) None None in
  let props2 :=
    example_props (Some "posts") (Some (KeyNum 5)) (Some false)
      (Some {["tenant" := JStr "acme"]}) in
  uq_queryKey (query (@useOne example_providers props1)) =
    uq_queryKey (query (@useOne example_providers_i18n props2)).
Proof.
  exact (@queryKey_determined_by example_providers example_providers_i18n
           (example_props (Some "posts") (Some (KeyNum 5)) None None)
           (example_props (Some "posts") (Some (KeyNum 5)) (Some false)
              (Some {["tenant" := JStr "acme"]}))
           eq_refl eq_refl eq_refl eq_refl eq_refl eq_refl eq_refl eq_refl
           eq_refl).
Defined.

Lemma notification_context_entries_shadowed :
  let props :=
    {| resourceFromProp := Some "posts";
       id := Some (KeyNum 5);
       queryOptions := None;
       successNotification := Some (Computed (λ _ _ _, None));
       errorNotification := None;
       meta := Some {["id" := JStr "shadow"]};
       metaData := None;
       liveMode := None;
       onLiveEvent := None;
       liveParams := None;
       dataProviderName := None;
       overtimeOptions := None |} in
  let q := query (@useOne example_providers props) in
  let err := {| message := "Not Found"; statusCode := 404 |} in
  let values : MetaQuery := {["id" := JStr "shadow"]} in
  (SuccessNotification JNull values "posts" ∈ trace (uq_onSuccess q JNull) ∨
     ErrorNotification err values "posts" ∈ trace (uq_onError q err)) ∧
  values !! "id" = Some (JStr "shadow").
Proof.
  intros props q err values.
  assert (Hin :
    SuccessNotification JNull values "posts" ∈ trace (uq_onSuccess q JNull) ∨
      ErrorNotification err values "posts" ∈ trace (uq_onError q err)).
  { left. vm_compute. constructor. }
  split; [exact Hin|].
  exact (proj2 (@notification_context_entries example_providers props JNull err
                  values "posts" Hin) "id").
Defined.

Lemma default_error_key_injective_witness :
  (safe_integer 5 ∧ safe_integer 7) ∧
  (np_key (@error_fallback example_providers (Some (KeyNum 5)) "posts"
             {| message := "Not Found"; statusCode := 404 |}) =
     np_key (@error_fallback example_providers (Some (KeyNum 7)) "posts"
               {| message := "Gone"; statusCode := 410 |}) ↔ 5 = 7).
Proof.
  assert (Hsafe : safe_integer 5 ∧ safe_integer 7).
  { unfold safe_integer. lia. }
  split; [exact Hsafe|].
  exact (proj1 (@default_error_key_injective example_providers "posts"
                  {| message := "Not Found"; statusCode := 404 |}
                  {| message := "Gone"; statusCode := 410 |})
           5 7 (proj1 Hsafe) (proj2 Hsafe)).
Defined.
